(** * setup.py of "Machine Efficiency Prediction": the packaging descriptor

    The script reads [requirements.txt], splits what it read with
    [str.splitlines], and hands the resulting list, three fixed strings and
    the result of [find_packages()] to [setup(...)].

    The development embeds the script as it is written: Python text as a
    list of code points, the text-mode read with its universal-newline
    translation, [str.splitlines] as CPython scans it, the [with] statement
    as open / body / close, and the two setuptools calls as calls of the
    host environment. *)

From Stdlib Require Import NArith Ascii String List Lia.
From stdpp Require Import base option list strings gmap.

Set Default Proof Using "Type".

(** ** Python text *)

(** A Python [str] is a sequence of Unicode code points. *)
Abbreviation char := N (only parsing).
Abbreviation str := (list N) (only parsing).

(** A literal of the source, written as a Rocq string of ASCII characters. *)
Fixpoint lit (s : string) : str :=
  match s with
  | EmptyString => []
  | String a s' => N_of_ascii a :: lit s'
  end.

Definition LF : char := 10%N.
Definition CR : char := 13%N.

(** The line boundaries of [str.splitlines]: \n, \v, \f, \r, the three
    separators \x1c \x1d \x1e, NEL \x85, and the Unicode line and paragraph
    separators U+2028 and U+2029. *)
Definition is_linebreak (c : char) : bool :=
  ((10 <=? c) && (c <=? 13) || (28 <=? c) && (c <=? 30) || (c =? 133)
   || (c =? 8232) || (c =? 8233))%N.

(** [str.isspace] on one code point, which is what [str.strip()] removes. *)
Definition is_space (c : char) : bool :=
  ((9 <=? c) && (c <=? 13) || (28 <=? c) && (c <=? 32) || (c =? 133)
   || (c =? 160) || (c =? 5760) || (8192 <=? c) && (c <=? 8202)
   || (c =? 8232) || (c =? 8233) || (c =? 8239) || (c =? 8287)
   || (c =? 12288))%N.

(** *** [str.splitlines()]

    CPython scans the text once.  It collects characters up to the next
    line boundary, emits them as one entry without the boundary, reads
    \r\n as a single boundary, and at the end of the text emits what is
    left only when something is left.  [cur] is the line collected so far. *)
Fixpoint splitlines_from (cur : str) (s : str) : list str :=
  match s with
  | [] => match cur with [] => [] | _ => [cur] end
  | c :: rest =>
      if is_linebreak c then
        cur :: (if (c =? CR)%N then
                  match rest with
                  | c' :: rest' =>
                      if (c' =? LF)%N then splitlines_from [] rest'
                      else splitlines_from [] rest
                  | [] => splitlines_from [] rest
                  end
                else splitlines_from [] rest)
      else splitlines_from (cur ++ [c]) rest
  end.

Definition splitlines (s : str) : list str := splitlines_from [] s.

(** *** Universal newlines

    [open(path)] opens in text mode with [newline=None]: on reading, \r\n
    and a lone \r are both handed to the program as \n. *)
Fixpoint translate_newlines (s : str) : str :=
  match s with
  | [] => []
  | c :: rest =>
      if (c =? CR)%N then
        LF :: match rest with
              | c' :: rest' =>
                  if (c' =? LF)%N then translate_newlines rest'
                  else translate_newlines rest
              | [] => translate_newlines rest
              end
      else c :: translate_newlines rest
  end.

(** ** The host: file system, open files, registered packages *)

(** What is found under a path.  A file carries its permission to be read
    and its contents as text; [None] stands for bytes that the locale's
    encoding cannot decode. *)
Inductive node :=
| Directory
| File (readable : bool) (text : option str).

(** The exceptions: those that [open] and [read] raise, and whatever
    setuptools raises inside [setup]. *)
Inductive exn :=
| FileNotFoundError (path : string)
| IsADirectoryError (path : string)
| PermissionError (path : string)
| UnicodeDecodeError
| SetupError (message : string).

(** A keyword argument of [setup] is a string or a list of strings. *)
Inductive value :=
| Str (s : str)
| StrList (l : list str).

Record host := Host {
  fs : gmap string node;
  open_files : list string;
  registered : list (list (string * value))
}.

(** Computations that read and change the host and may raise. *)
Definition M (A : Type) : Type := host -> (exn + A) * host.

Definition ret {A} (a : A) : M A := fun h => (inr a, h).

Definition raise {A} (e : exn) : M A := fun h => (inl e, h).

Definition bind {A B} (m : M A) (k : A -> M B) : M B :=
  fun h =>
    match m h with
    | (inl e, h') => (inl e, h')
    | (inr a, h') => k a h'
    end.

Notation "x <- m ;; k" := (bind m (fun x => k))
  (at level 100, m at next level, right associativity).

(** [open(path)], for reading in text mode. *)
Definition open (path : string) : M string :=
  fun h =>
    match fs h !! path with
    | None => raise (FileNotFoundError path) h
    | Some Directory => raise (IsADirectoryError path) h
    | Some (File false _) => raise (PermissionError path) h
    | Some (File true _) =>
        (inr path, Host (fs h) (path :: open_files h) (registered h))
    end.

(** [f.read()] on the file opened as [f]: the whole text, newlines
    translated, or [UnicodeDecodeError] when the bytes do not decode. *)
Definition read (f : string) : M str :=
  fun h =>
    match fs h !! f with
    | Some (File _ (Some text)) => (inr (translate_newlines text), h)
    | _ => raise UnicodeDecodeError h
    end.

Fixpoint remove_first (f : string) (l : list string) : list string :=
  match l with
  | [] => []
  | g :: l' => if String.eqb f g then l' else g :: remove_first f l'
  end.

Definition close (f : string) : M unit :=
  fun h => (inr tt, Host (fs h) (remove_first f (open_files h)) (registered h)).

(** [with open(path) as f: body]: the file is closed when the body is left,
    by its end or by an exception, and an exception goes on. *)
Definition with_open {A} (path : string) (body : string -> M A) : M A :=
  f <- open path ;;
  fun h =>
    let '(r, h') := body f h in
    let '(_, h'') := close f h' in
    (r, h'').

Definition requirements_txt : string := "requirements.txt".

Section Script.

(** The two setuptools functions the script calls are not part of the
    repository: the script is read for every behaviour of them.
    [find_packages()] scans the source tree; [setup(...)] may raise and
    may change the file system. *)
Variable find_packages : gmap string node -> list str.
Variable host_setup :
  list (string * value) -> gmap string node -> (exn + unit) * gmap string node.

Definition call_find_packages : M (list str) :=
  fun h => (inr (find_packages (fs h)), h).

(** The call [setup(...)] with keyword arguments [kw]: the call is
    recorded in [registered], then setuptools does its work. *)
Definition call_setup (kw : list (string * value)) : M unit :=
  fun h =>
    let '(r, fs') := host_setup kw (fs h) in
    (r, Host fs' (open_files h) (registered h ++ [kw])).

(** Lines 3-4 of the script. *)
Definition read_requirements : M (list str) :=
  with_open requirements_txt (fun f =>
    data <- read f ;;
    ret (splitlines data)).

(** The keyword arguments written on lines 7-11. *)
Definition metadata (packages requirements : list str)
  : list (string * value) :=
  [ ("name", Str (lit "Machine Efficiency Prediction"));
    ("version", Str (lit "0.1"));
    ("author", Str (lit "David G"));
    ("packages", StrList packages);
    ("install_requires", StrList requirements) ].

(** Everything the script does before it enters [setup]: the manifest is
    read and the arguments of the call are evaluated. *)
Definition descriptor : M (list (string * value)) :=
  requirements <- read_requirements ;;
  packages <- call_find_packages ;;
  ret (metadata packages requirements).

(** The script. *)
Definition setup_py : M unit :=
  kw <- descriptor ;;
  call_setup kw.

End Script.

(** ** Vocabulary of the specification *)

(** The manifest as the script can read it: its text when the file is
    there, may be read and decodes. *)
Definition manifest_text (h : host) : option str :=
  match fs h !! requirements_txt with
  | Some (File true (Some text)) => Some text
  | _ => None
  end.

(** The one error kind of the specification: the exceptions of opening and
    reading the manifest. *)
Definition ManifestUnreadable (e : exn) : Prop :=
  e = FileNotFoundError requirements_txt
  \/ e = IsADirectoryError requirements_txt
  \/ e = PermissionError requirements_txt
  \/ e = UnicodeDecodeError.

(** The exception of opening and reading what is found under the path of
    the manifest, when that is no text that can be read. *)
Definition manifest_error (n : option node) : exn :=
  match n with
  | None => FileNotFoundError requirements_txt
  | Some Directory => IsADirectoryError requirements_txt
  | Some (File false _) => PermissionError requirements_txt
  | Some (File true _) => UnicodeDecodeError
  end.

(** The requirements list of a manifest with contents [text]. *)
Definition requirements_of (text : str) : list str :=
  splitlines (translate_newlines text).

(** The value of a keyword argument. *)
Fixpoint field (k : string) (kw : list (string * value)) : option value :=
  match kw with
  | [] => None
  | (k', v) :: kw' => if String.eqb k k' then Some v else field k kw'
  end.

(** A line is text without line boundaries. *)
Definition breakfree (l : str) : Prop :=
  Forall (fun c => is_linebreak c = false) l.

(** What ends a line: one line-boundary character, or \r\n. *)
Inductive terminator : str -> Prop :=
| terminator_crlf : terminator [CR; LF]
| terminator_char c : is_linebreak c = true -> terminator [c].

Definition starts_with_LF (s : str) : bool :=
  match s with
  | c :: _ => (c =? LF)%N
  | [] => false
  end.

(** [lines_of text ls]: the text is the lines [ls] in order, each followed
    by a terminator, which may be missing after a last line that is not
    empty.  A \r that ends a line is not followed by \n, as the two together
    are one terminator. *)
Inductive lines_of : str -> list str -> Prop :=
| lines_of_nil : lines_of [] []
| lines_of_last l :
    l <> [] -> breakfree l -> lines_of l [l]
| lines_of_cons l t rest ls :
    breakfree l -> terminator t ->
    (t = [CR] -> starts_with_LF rest = false) ->
    lines_of rest ls ->
    lines_of (l ++ t ++ rest) (l :: ls).

(** [str.strip()]: whitespace removed at both ends. *)
Fixpoint lstrip (s : str) : str :=
  match s with
  | [] => []
  | c :: s' => if is_space c then lstrip s' else s
  end.

Definition strip (s : str) : str := rev (lstrip (rev (lstrip s))).

Definition nonempty (l : str) : bool :=
  match l with [] => false | _ => true end.

(** Hosts and host functions to run the script on. *)
Definition manifest_host (text : str) : host :=
  Host {[ requirements_txt := File true (Some text) ]} [] [].

Definition no_packages : gmap string node -> list str := fun _ => [].

Definition setup_accepts
  : list (string * value) -> gmap string node -> (exn + unit) * gmap string node :=
  fun _ m => (inr tt, m).

(** A setuptools that refuses the record, as it does for a requirement
    that is no valid specifier. *)
Definition setup_rejects
  : list (string * value) -> gmap string node -> (exn + unit) * gmap string node :=
  fun _ m => (inl (SetupError "invalid requirement specifier"), m).

(** A manifest that can be read and names no valid requirement. *)
Definition open_pin_text : str := lit "numpy==" ++ [LF].

(** Manifests to run the script on: the example of the specification, a
    manifest with a blank line, one with spaces around a name, one written
    with \r\n. *)
Definition example_text : str :=
  lit "numpy==1.21.0" ++ [LF] ++ lit "pandas" ++ [LF].

Definition blank_text : str :=
  lit "numpy" ++ [LF; LF] ++ lit "pandas" ++ [LF].

Definition padded_text : str := lit "  numpy  " ++ [LF].

Definition dos_text : str :=
  lit "numpy" ++ [CR; LF; CR; LF] ++ lit "pandas" ++ [CR; LF].

(** A host with more than the manifest in its source tree, and a
    [find_packages] that finds a package. *)
Definition project_host (text : str) : host :=
  Host (<[ "src" := Directory ]> {[ requirements_txt := File true (Some text) ]})
       [] [].

Definition one_package : gmap string node -> list str := fun _ => [lit "src"].

(** A host without a manifest. *)
Definition bare_host : host := Host ∅ [] [].

(** The text of a file written line after line, each line followed by the
    end-of-line marker [eol]. *)
Definition unlines (eol : str) (ls : list str) : str :=
  concat (map (fun l => l ++ eol) ls).

(** The characters of a text that are no line boundaries. *)
Definition not_linebreak (c : char) : bool := negb (is_linebreak c).

(** ** The text functions *)

Example splitlines_ex1 :
  splitlines (lit "a" ++ [CR; LF] ++ lit "b" ++ [LF; LF] ++ lit "c")
  = [lit "a"; lit "b"; []; lit "c"].
Proof. reflexivity. Qed.

Example translate_ex1 :
  translate_newlines (lit "a" ++ [CR; LF] ++ lit "b" ++ [CR] ++ lit "c" ++ [CR])
  = lit "a" ++ [LF] ++ lit "b" ++ [LF] ++ lit "c" ++ [LF].
Proof. reflexivity. Qed.

Example strip_ex1 : strip (lit "  numpy  ") = lit "numpy".
Proof. reflexivity. Qed.

(** Induction that follows the scan: the step may look at the text after
    the next character, and at the text after the next two. *)
Lemma scan_ind (P : str -> Prop) :
  P [] ->
  (forall c rest, P rest -> P (tail rest) -> P (c :: rest)) ->
  forall s, P s.
Proof.
  intros Hnil Hstep s.
  cut (P s /\ P (tail s)); [tauto|].
  induction s as [|c rest [IH1 IH2]]; simpl; auto.
Qed.

Lemma is_linebreak_CR : is_linebreak CR = true.
Proof. reflexivity. Qed.

Lemma is_linebreak_LF : is_linebreak LF = true.
Proof. reflexivity. Qed.

Lemma breakfree_snoc cur c :
  breakfree cur -> is_linebreak c = false -> breakfree (cur ++ [c]).
Proof.
  intros Hcur Hc. apply Forall_app. split; [exact Hcur|].
  constructor; [exact Hc|constructor].
Qed.

(** A run of characters that are no line boundaries is collected as it is. *)
Lemma splitlines_from_breakfree l : forall cur s,
  breakfree l -> splitlines_from cur (l ++ s) = splitlines_from (cur ++ l) s.
Proof.
  induction l as [|c l IH]; intros cur s Hl.
  - now rewrite app_nil_r.
  - inversion Hl as [|? ? Hc Hl']; subst. simpl.
    rewrite Hc, IH by exact Hl'.
    now rewrite <- app_assoc.
Qed.

(** A terminator ends the line collected so far. *)
Lemma splitlines_from_terminator t cur rest :
  terminator t ->
  (t = [CR] -> starts_with_LF rest = false) ->
  splitlines_from cur (t ++ rest) = cur :: splitlines rest.
Proof.
  intros Ht Hcr. destruct Ht as [|c Hc].
  - reflexivity.
  - simpl. rewrite Hc. destruct (c =? CR)%N eqn:E; [|reflexivity].
    apply N.eqb_eq in E. subst c.
    specialize (Hcr eq_refl). destruct rest as [|c' rest']; [reflexivity|].
    simpl in Hcr. now rewrite Hcr.
Qed.

(** [str.splitlines] yields the lines of the text ... *)
Lemma lines_of_splitlines s ls : lines_of s ls -> splitlines s = ls.
Proof.
  induction 1 as [|l Hne Hl|l t rest ls Hl Ht Hcr _ IH]; unfold splitlines.
  - reflexivity.
  - rewrite <- (app_nil_r l) at 1.
    rewrite splitlines_from_breakfree by exact Hl. simpl.
    destruct l; [contradiction|reflexivity].
  - rewrite splitlines_from_breakfree by exact Hl. simpl.
    rewrite splitlines_from_terminator by assumption.
    now rewrite IH.
Qed.

Lemma splitlines_from_lines s : forall cur,
  breakfree cur -> lines_of (cur ++ s) (splitlines_from cur s).
Proof.
  induction s as [|c rest IH1 IH2] using scan_ind; intros cur Hcur.
  - rewrite app_nil_r. simpl. destruct cur as [|c0 cur'] eqn:E.
    + constructor.
    + apply lines_of_last; [discriminate|exact Hcur].
  - simpl. destruct (is_linebreak c) eqn:Hc.
    + destruct (c =? CR)%N eqn:Ecr.
      * apply N.eqb_eq in Ecr. subst c.
        destruct rest as [|c' rest'].
        -- apply (lines_of_cons cur [CR] []); auto.
           ++ now apply terminator_char.
           ++ apply (IH1 []). constructor.
        -- destruct (c' =? LF)%N eqn:Elf.
           ++ apply N.eqb_eq in Elf. subst c'.
              apply (lines_of_cons cur [CR; LF] rest'); auto.
              ** constructor.
              ** discriminate.
              ** apply (IH2 []). constructor.
           ++ apply (lines_of_cons cur [CR] (c' :: rest')); auto.
              ** now apply terminator_char.
              ** apply (IH1 []). constructor.
      * apply (lines_of_cons cur [c] rest); auto.
        -- now apply terminator_char.
        -- intros Heq. injection Heq as ->. discriminate.
        -- apply (IH1 []). constructor.
    + replace (cur ++ c :: rest) with ((cur ++ [c]) ++ rest)
        by now rewrite <- app_assoc.
      apply IH1. now apply breakfree_snoc.
Qed.

(** ... and every text has lines. *)
Lemma splitlines_lines s : lines_of s (splitlines s).
Proof. apply (splitlines_from_lines s []). constructor. Qed.

Lemma lines_of_iff s ls : lines_of s ls <-> splitlines s = ls.
Proof.
  split; [apply lines_of_splitlines|].
  intros <-. apply splitlines_lines.
Qed.

(** The translation of newlines on reading changes no line. *)
Lemma splitlines_from_translate s : forall cur,
  splitlines_from cur (translate_newlines s) = splitlines_from cur s.
Proof.
  induction s as [|c rest IH1 IH2] using scan_ind; intros cur; [reflexivity|].
  simpl. destruct (c =? CR)%N eqn:Ecr.
  - apply N.eqb_eq in Ecr. subst c. simpl. f_equal.
    destruct rest as [|c' rest']; [reflexivity|].
    destruct (c' =? LF)%N; [apply IH2|apply IH1].
  - simpl. rewrite Ecr. destruct (is_linebreak c); [f_equal|]; apply IH1.
Qed.

Lemma requirements_of_splitlines text : requirements_of text = splitlines text.
Proof. apply splitlines_from_translate. Qed.

(** What is read has no \r left. *)
Lemma translate_newlines_no_CR s : Forall (fun c => c <> CR) (translate_newlines s).
Proof.
  induction s as [|c rest IH1 IH2] using scan_ind; [constructor|].
  simpl. destruct (c =? CR)%N eqn:Ecr.
  - constructor; [discriminate|].
    destruct rest as [|c' rest']; [constructor|].
    destruct (c' =? LF)%N; [apply IH2|apply IH1].
  - constructor; [now apply N.eqb_neq|apply IH1].
Qed.

(** No entry keeps a line boundary. *)
Lemma splitlines_from_breakfree_entries s : forall cur,
  breakfree cur -> Forall breakfree (splitlines_from cur s).
Proof.
  induction s as [|c rest IH1 IH2] using scan_ind; intros cur Hcur; simpl.
  - destruct cur; repeat constructor; inversion Hcur; assumption.
  - destruct (is_linebreak c) eqn:Hc.
    + constructor; [exact Hcur|].
      destruct (c =? CR)%N; [|apply IH1; constructor].
      destruct rest as [|c' rest']; [constructor|].
      destruct (c' =? LF)%N; [apply IH2|apply IH1]; constructor.
    + apply IH1. now apply breakfree_snoc.
Qed.

(** ** The script on a host *)

Lemma manifest_text_Some h text :
  manifest_text h = Some text ->
  fs h !! requirements_txt = Some (File true (Some text)).
Proof.
  unfold manifest_text.
  destruct (fs h !! requirements_txt) as [[|[] [t|]]|]; congruence.
Qed.

Lemma manifest_text_None h :
  manifest_text h = None ->
  fs h !! requirements_txt = None
  \/ fs h !! requirements_txt = Some Directory
  \/ (exists o, fs h !! requirements_txt = Some (File false o))
  \/ fs h !! requirements_txt = Some (File true None).
Proof.
  unfold manifest_text.
  destruct (fs h !! requirements_txt) as [[|[] [t|]]|]; try congruence; eauto.
Qed.

Lemma manifest_host_text text : manifest_text (manifest_host text) = Some text.
Proof.
  unfold manifest_text, manifest_host. simpl.
  now rewrite lookup_singleton_eq.
Qed.

(** Lines 3-4 on a manifest that can be read: the file is opened, read and
    closed again, and the host is as before. *)
Lemma read_requirements_readable h text :
  manifest_text h = Some text ->
  read_requirements h = (inr (requirements_of text), h).
Proof.
  intros Hm. apply manifest_text_Some in Hm.
  unfold read_requirements, with_open, bind, open, read, ret, raise, close.
  rewrite Hm. simpl. rewrite Hm. simpl.
  destruct h; reflexivity.
Qed.

(** Lines 3-4 on a manifest that cannot be read: the exception of [open]
    or of [read] leaves the [with] statement, the file is closed, and the
    host is as before. *)
Lemma read_requirements_unreadable_error h :
  manifest_text h = None ->
  read_requirements h = (inl (manifest_error (fs h !! requirements_txt)), h).
Proof.
  intros Hm.
  unfold read_requirements, with_open, bind, open, read, ret, raise, close.
  destruct (manifest_text_None h Hm) as [E|[E|[[o E]|E]]]; rewrite E; simpl;
    try reflexivity.
  rewrite E. simpl. destruct h; reflexivity.
Qed.

Lemma manifest_error_unreadable n : ManifestUnreadable (manifest_error n).
Proof.
  unfold ManifestUnreadable. destruct n as [[|[] o]|]; simpl; auto.
Qed.

Lemma read_requirements_unreadable h :
  manifest_text h = None ->
  exists e,
    ManifestUnreadable e
    /\ read_requirements h = (inl e, h)
    /\ (fs h !! requirements_txt = None -> e = FileNotFoundError requirements_txt).
Proof.
  intros Hm. exists (manifest_error (fs h !! requirements_txt)).
  split; [apply manifest_error_unreadable|].
  split; [now apply read_requirements_unreadable_error|].
  now intros ->.
Qed.

Section ScriptFacts.

Variable find_packages : gmap string node -> list str.
Variable host_setup :
  list (string * value) -> gmap string node -> (exn + unit) * gmap string node.

Lemma descriptor_readable h text :
  manifest_text h = Some text ->
  descriptor find_packages h
  = (inr (metadata (find_packages (fs h)) (requirements_of text)), h).
Proof.
  intros Hm. unfold descriptor, bind.
  now rewrite (read_requirements_readable h text Hm).
Qed.

Lemma descriptor_unreadable h :
  manifest_text h = None ->
  exists e,
    ManifestUnreadable e
    /\ descriptor find_packages h = (inl e, h)
    /\ (fs h !! requirements_txt = None -> e = FileNotFoundError requirements_txt).
Proof.
  intros Hm.
  destruct (read_requirements_unreadable h Hm) as (e & He & Hr & Hmiss).
  exists e. split; [exact He|]. split; [|exact Hmiss].
  unfold descriptor, bind. now rewrite Hr.
Qed.

Lemma descriptor_unreadable_error h :
  manifest_text h = None ->
  descriptor find_packages h
  = (inl (manifest_error (fs h !! requirements_txt)), h).
Proof.
  intros Hm. unfold descriptor, bind.
  now rewrite (read_requirements_unreadable_error h Hm).
Qed.

Lemma setup_py_readable h text :
  manifest_text h = Some text ->
  setup_py find_packages host_setup h
  = call_setup host_setup
      (metadata (find_packages (fs h)) (requirements_of text)) h.
Proof.
  intros Hm. unfold setup_py, bind.
  now rewrite (descriptor_readable h text Hm).
Qed.

Lemma call_setup_registered kw h :
  registered (snd (call_setup host_setup kw h)) = registered h ++ [kw].
Proof.
  unfold call_setup. now destruct (host_setup kw (fs h)).
Qed.

Lemma call_setup_result kw h :
  fst (call_setup host_setup kw h) = fst (host_setup kw (fs h)).
Proof.
  unfold call_setup. now destruct (host_setup kw (fs h)).
Qed.

End ScriptFacts.

(** ** The requirements list *)

(** C1, as the code has it: for every manifest that can be read and whose
    contents are the lines [ls], lines 3-4 of the script produce exactly
    these lines, as many and in this order, each as it is written (without
    its terminator): blank lines are entries and surrounding whitespace is
    kept.  Where every line is non-empty and has no whitespace around it,
    these are the stripped non-empty lines. *)
Theorem requirements_are_lines_as_written (h : host) (text : str) (ls : list str) :
  manifest_text h = Some text ->
  lines_of text ls ->
  exists reqs : list str,
    read_requirements h = (inr reqs, h)
    /\ length reqs = length ls
    /\ (forall i : nat, reqs !! i = ls !! i)
    /\ (Forall (fun l => l <> [] /\ strip l = l) ls ->
        reqs = map strip (List.filter nonempty ls)
        /\ length reqs = length (List.filter nonempty ls)).
Proof.
  intros Hm Hl. exists ls.
  rewrite (read_requirements_readable h text Hm), requirements_of_splitlines.
  rewrite (lines_of_splitlines text ls Hl).
  split; [reflexivity|]. split; [reflexivity|]. split; [reflexivity|].
  intros Hall. clear Hm Hl.
  assert (E : map strip (List.filter nonempty ls) = ls).
  { induction Hall as [|l ls' [Hne Hs] _ IH]; [reflexivity|].
    simpl. destruct l as [|c l']; [contradiction|].
    simpl nonempty. cbv iota. rewrite map_cons. now rewrite Hs, IH. }
  split; [now rewrite E|].
  now rewrite <- (length_map strip (List.filter nonempty ls)), E.
Qed.

Lemma requirements_are_lines_as_written_witness :
  manifest_text (manifest_host example_text) = Some example_text
  /\ lines_of example_text [lit "numpy==1.21.0"; lit "pandas"]
  /\ exists reqs : list str,
       read_requirements (manifest_host example_text)
       = (inr reqs, manifest_host example_text)
       /\ length reqs = 2
       /\ (forall i : nat, reqs !! i = [lit "numpy==1.21.0"; lit "pandas"] !! i)
       /\ (Forall (fun l => l <> [] /\ strip l = l)
             [lit "numpy==1.21.0"; lit "pandas"] ->
           reqs = map strip
                    (List.filter nonempty [lit "numpy==1.21.0"; lit "pandas"])
           /\ length reqs
              = length (List.filter nonempty [lit "numpy==1.21.0"; lit "pandas"])).
Proof.
  split; [apply manifest_host_text|].
  split; [apply lines_of_iff; reflexivity|].
  apply (requirements_are_lines_as_written
           (manifest_host example_text) example_text
           [lit "numpy==1.21.0"; lit "pandas"]).
  - apply manifest_host_text.
  - apply lines_of_iff; reflexivity.
Defined.

(** C1 as it is stated fails on the code.  The manifest ["  numpy  \n"] has
    one non-empty line, and its entry is that line with the spaces, not the
    stripped line.  The manifest ["numpy\n\npandas\n"] has two non-empty
    lines, and three entries. *)
Lemma requirements_not_stripped_not_filtered :
  (lines_of padded_text [lit "  numpy  "]
   /\ read_requirements (manifest_host padded_text)
      = (inr [lit "  numpy  "], manifest_host padded_text)
   /\ map strip (List.filter nonempty [lit "  numpy  "]) = [lit "numpy"]
   /\ [lit "  numpy  "] <> [lit "numpy"])
  /\ (lines_of blank_text [lit "numpy"; []; lit "pandas"]
      /\ read_requirements (manifest_host blank_text)
         = (inr [lit "numpy"; []; lit "pandas"], manifest_host blank_text)
      /\ length (List.filter nonempty [lit "numpy"; []; lit "pandas"]) = 2
      /\ length [lit "numpy"; []; lit "pandas"] = 3).
Proof.
  split.
  - split; [apply lines_of_iff; reflexivity|].
    split; [|split; [reflexivity|discriminate]].
    now rewrite (read_requirements_readable _ _ (manifest_host_text padded_text)).
  - split; [apply lines_of_iff; reflexivity|].
    split; [|split; reflexivity].
    now rewrite (read_requirements_readable _ _ (manifest_host_text blank_text)).
Qed.

(** C5: the manifest ["numpy==1.21.0\npandas\n"] gives exactly the two
    entries ["numpy==1.21.0"] and ["pandas"]; the newline at the end gives
    no third, empty entry. *)
Theorem example_manifest_requirements :
  requirements_of (lit "numpy==1.21.0" ++ [LF] ++ lit "pandas" ++ [LF])
  = [lit "numpy==1.21.0"; lit "pandas"]
  /\ read_requirements
       (manifest_host (lit "numpy==1.21.0" ++ [LF] ++ lit "pandas" ++ [LF]))
     = (inr [lit "numpy==1.21.0"; lit "pandas"],
        manifest_host (lit "numpy==1.21.0" ++ [LF] ++ lit "pandas" ++ [LF]))
  /\ last (requirements_of (lit "numpy==1.21.0" ++ [LF] ++ lit "pandas" ++ [LF]))
     = Some (lit "pandas").
Proof.
  split; [reflexivity|]. split; [|reflexivity].
  now rewrite (read_requirements_readable _ _ (manifest_host_text _)).
Qed.

(** ** Failure and success *)

Lemma bare_host_text : manifest_text bare_host = None.
Proof. unfold manifest_text, bare_host. simpl. now rewrite lookup_empty. Qed.

(** The descriptor fails on no other host than one whose manifest cannot
    be read. *)
Lemma descriptor_fails_only_unreadable
    (fp : gmap string node -> list str) (h : host) (e : exn) :
  fst (descriptor fp h) = inl e -> manifest_text h = None /\ ManifestUnreadable e.
Proof.
  intros Hf. destruct (manifest_text h) as [text|] eqn:Hm.
  - rewrite (descriptor_readable fp h text Hm) in Hf. discriminate.
  - split; [reflexivity|].
    destruct (descriptor_unreadable fp h Hm) as (e' & He & Hd & _).
    rewrite Hd in Hf. simpl in Hf. congruence.
Qed.

(** C2: when the manifest is missing or cannot be read, the script ends
    with an exception of opening or reading the manifest
    ([FileNotFoundError] when it is missing), nothing catches it, the host
    is left as it was, and [setup] is not called, whatever setuptools would
    have done. *)
Theorem unreadable_manifest_aborts
    (fp : gmap string node -> list str)
    (hs : list (string * value) -> gmap string node
          -> (exn + unit) * gmap string node)
    (h : host) :
  manifest_text h = None ->
  exists e : exn,
    ManifestUnreadable e
    /\ descriptor fp h = (inl e, h)
    /\ setup_py fp hs h = (inl e, h)
    /\ registered (snd (setup_py fp hs h)) = registered h
    /\ (fs h !! requirements_txt = None -> e = FileNotFoundError requirements_txt).
Proof.
  intros Hm.
  destruct (descriptor_unreadable fp h Hm) as (e & He & Hd & Hmiss).
  exists e. unfold setup_py, bind. rewrite Hd. simpl. auto.
Qed.

Lemma unreadable_manifest_aborts_witness :
  manifest_text bare_host = None
  /\ exists e : exn,
       ManifestUnreadable e
       /\ descriptor no_packages bare_host = (inl e, bare_host)
       /\ setup_py no_packages setup_accepts bare_host = (inl e, bare_host)
       /\ registered (snd (setup_py no_packages setup_accepts bare_host))
          = registered bare_host
       /\ (fs bare_host !! requirements_txt = None
           -> e = FileNotFoundError requirements_txt).
Proof.
  split; [exact bare_host_text|].
  apply (unreadable_manifest_aborts no_packages setup_accepts bare_host).
  exact bare_host_text.
Defined.

(** C3 as it is stated fails on the code: a manifest that cannot be read is
    not the only way for the script to fail.  The manifest ["numpy==\n"] is
    there and is read, the record is built with the entry ["numpy=="], and
    the script ends with the exception that [setup] raises for it. *)
Lemma readable_manifest_setup_can_fail :
  manifest_text (manifest_host open_pin_text) = Some open_pin_text
  /\ descriptor no_packages (manifest_host open_pin_text)
     = (inr (metadata [] [lit "numpy=="]), manifest_host open_pin_text)
  /\ fst (setup_py no_packages setup_rejects (manifest_host open_pin_text))
     = inl (SetupError "invalid requirement specifier")
  /\ ~ ManifestUnreadable (SetupError "invalid requirement specifier").
Proof.
  split; [apply manifest_host_text|].
  split; [now rewrite (descriptor_readable _ _ _ (manifest_host_text open_pin_text))|].
  split.
  - now rewrite (setup_py_readable _ _ _ _ (manifest_host_text open_pin_text)).
  - unfold ManifestUnreadable. intros [H|[H|[H|H]]]; discriminate.
Qed.

(** C3, as the code has it: when the manifest is there and can be read, the
    construction of the descriptor does not fail.  The manifest is read, the
    record is built and [setup] is called with it; the result of the script
    is the result of that call, so that an exception of the script on such
    a manifest is one that setuptools raises inside [setup]. *)
Theorem readable_manifest_reaches_setup
    (fp : gmap string node -> list str)
    (hs : list (string * value) -> gmap string node
          -> (exn + unit) * gmap string node)
    (h : host) (text : str) :
  manifest_text h = Some text ->
  exists kw : list (string * value),
    descriptor fp h = (inr kw, h)
    /\ (forall e : exn, fst (descriptor fp h) <> inl e)
    /\ setup_py fp hs h = call_setup hs kw h
    /\ registered (snd (setup_py fp hs h)) = registered h ++ [kw]
    /\ fst (setup_py fp hs h) = fst (hs kw (fs h))
    /\ (forall e : exn,
          fst (setup_py fp hs h) = inl e -> fst (hs kw (fs h)) = inl e).
Proof.
  intros Hm. exists (metadata (fp (fs h)) (requirements_of text)).
  rewrite (descriptor_readable fp h text Hm).
  rewrite (setup_py_readable fp hs h text Hm).
  rewrite call_setup_registered, call_setup_result.
  repeat split; [|auto]. intros e. simpl. discriminate.
Qed.

Lemma readable_manifest_reaches_setup_witness :
  manifest_text (manifest_host example_text) = Some example_text
  /\ exists kw : list (string * value),
       descriptor no_packages (manifest_host example_text)
       = (inr kw, manifest_host example_text)
       /\ (forall e : exn,
             fst (descriptor no_packages (manifest_host example_text)) <> inl e)
       /\ setup_py no_packages setup_accepts (manifest_host example_text)
          = call_setup setup_accepts kw (manifest_host example_text)
       /\ registered
            (snd (setup_py no_packages setup_accepts (manifest_host example_text)))
          = registered (manifest_host example_text) ++ [kw]
       /\ fst (setup_py no_packages setup_accepts (manifest_host example_text))
          = fst (setup_accepts kw (fs (manifest_host example_text)))
       /\ (forall e : exn,
             fst (setup_py no_packages setup_accepts (manifest_host example_text))
             = inl e ->
             fst (setup_accepts kw (fs (manifest_host example_text))) = inl e).
Proof.
  split; [apply manifest_host_text|].
  apply (readable_manifest_reaches_setup
           no_packages setup_accepts (manifest_host example_text) example_text).
  apply manifest_host_text.
Defined.

(** C4: for the empty manifest the requirements list is empty, [setup] is
    called with [install_requires = []], and the script succeeds when that
    call does. *)
Theorem empty_manifest_no_requirements
    (fp : gmap string node -> list str)
    (hs : list (string * value) -> gmap string node
          -> (exn + unit) * gmap string node)
    (h : host) :
  manifest_text h = Some [] ->
  read_requirements h = (inr [], h)
  /\ setup_py fp hs h = call_setup hs (metadata (fp (fs h)) []) h
  /\ field "install_requires" (metadata (fp (fs h)) []) = Some (StrList [])
  /\ registered (snd (setup_py fp hs h))
     = registered h ++ [metadata (fp (fs h)) []]
  /\ (fst (hs (metadata (fp (fs h)) []) (fs h)) = inr tt
      -> fst (setup_py fp hs h) = inr tt).
Proof.
  intros Hm.
  rewrite (read_requirements_readable h [] Hm).
  rewrite (setup_py_readable fp hs h [] Hm).
  rewrite call_setup_registered, call_setup_result.
  repeat split. auto.
Qed.

Lemma empty_manifest_no_requirements_witness :
  manifest_text (manifest_host []) = Some []
  /\ read_requirements (manifest_host []) = (inr [], manifest_host [])
  /\ setup_py no_packages setup_accepts (manifest_host [])
     = call_setup setup_accepts
         (metadata (no_packages (fs (manifest_host []))) []) (manifest_host [])
  /\ field "install_requires" (metadata (no_packages (fs (manifest_host []))) [])
     = Some (StrList [])
  /\ registered (snd (setup_py no_packages setup_accepts (manifest_host [])))
     = registered (manifest_host [])
       ++ [metadata (no_packages (fs (manifest_host []))) []]
  /\ (fst (setup_accepts (metadata (no_packages (fs (manifest_host []))) [])
             (fs (manifest_host []))) = inr tt
      -> fst (setup_py no_packages setup_accepts (manifest_host [])) = inr tt).
Proof.
  split; [apply manifest_host_text|].
  apply (empty_manifest_no_requirements no_packages setup_accepts (manifest_host [])).
  apply manifest_host_text.
Defined.

(** ** Blank lines and line terminators *)

(** C6: a blank line of the manifest, the line number [i] being empty, gives
    the empty string as entry number [i] of the requirements list; it is
    not skipped. *)
Theorem blank_line_gives_empty_entry
    (h : host) (text : str) (ls : list str) (i : nat) :
  manifest_text h = Some text ->
  lines_of text ls ->
  ls !! i = Some [] ->
  exists reqs : list str,
    read_requirements h = (inr reqs, h)
    /\ reqs !! i = Some []
    /\ length reqs = length ls.
Proof.
  intros Hm Hl Hi. exists ls.
  rewrite (read_requirements_readable h text Hm), requirements_of_splitlines.
  now rewrite (lines_of_splitlines text ls Hl).
Qed.

Lemma blank_line_gives_empty_entry_witness :
  manifest_text (manifest_host dos_text) = Some dos_text
  /\ lines_of dos_text [lit "numpy"; []; lit "pandas"]
  /\ [lit "numpy"; []; lit "pandas"] !! 1 = Some []
  /\ exists reqs : list str,
       read_requirements (manifest_host dos_text)
       = (inr reqs, manifest_host dos_text)
       /\ reqs !! 1 = Some []
       /\ length reqs = length [lit "numpy"; []; lit "pandas"].
Proof.
  split; [apply manifest_host_text|].
  split; [apply lines_of_iff; reflexivity|].
  split; [reflexivity|].
  apply (blank_line_gives_empty_entry
           (manifest_host dos_text) dos_text [lit "numpy"; []; lit "pandas"] 1).
  - apply manifest_host_text.
  - apply lines_of_iff; reflexivity.
  - reflexivity.
Defined.

(** C7 as it is stated fails on the code: the manifest ["numpy\n\npandas\n"]
    gives a requirements list of three entries, the second of them the empty
    string, and this list, with its empty entry, is the [install_requires] of the record. *)
Lemma blank_line_entry_is_empty :
  descriptor no_packages (manifest_host blank_text)
  = (inr (metadata [] [lit "numpy"; []; lit "pandas"]), manifest_host blank_text)
  /\ field "install_requires" (metadata [] [lit "numpy"; []; lit "pandas"])
     = Some (StrList [lit "numpy"; []; lit "pandas"])
  /\ ~ Forall (fun entry : str => entry <> []) [lit "numpy"; []; lit "pandas"].
Proof.
  split; [|split; [reflexivity|]].
  - now rewrite (descriptor_readable _ _ _ (manifest_host_text blank_text)).
  - intros Hall. inversion Hall as [|? ? _ Hall']; subst.
    inversion Hall' as [|? ? Hne _]; subst. now apply Hne.
Qed.

(** C7, as the code has it: for every manifest without a blank line, every
    entry of the requirements list of the record is a non-empty string. *)
Theorem entries_nonempty_without_blank_lines
    (fp : gmap string node -> list str) (h : host) (text : str) (ls : list str) :
  manifest_text h = Some text ->
  lines_of text ls ->
  Forall (fun l : str => l <> []) ls ->
  exists reqs : list str,
    descriptor fp h = (inr (metadata (fp (fs h)) reqs), h)
    /\ field "install_requires" (metadata (fp (fs h)) reqs) = Some (StrList reqs)
    /\ Forall (fun entry : str => entry <> []) reqs.
Proof.
  intros Hm Hl Hne. exists ls.
  rewrite (descriptor_readable fp h text Hm), requirements_of_splitlines.
  now rewrite (lines_of_splitlines text ls Hl).
Qed.

Lemma entries_nonempty_without_blank_lines_witness :
  manifest_text (manifest_host example_text) = Some example_text
  /\ lines_of example_text [lit "numpy==1.21.0"; lit "pandas"]
  /\ Forall (fun l : str => l <> []) [lit "numpy==1.21.0"; lit "pandas"]
  /\ exists reqs : list str,
       descriptor no_packages (manifest_host example_text)
       = (inr (metadata (no_packages (fs (manifest_host example_text))) reqs),
          manifest_host example_text)
       /\ field "install_requires"
            (metadata (no_packages (fs (manifest_host example_text))) reqs)
          = Some (StrList reqs)
       /\ Forall (fun entry : str => entry <> []) reqs.
Proof.
  split; [apply manifest_host_text|].
  split; [apply lines_of_iff; reflexivity|].
  split; [repeat constructor; discriminate|].
  apply (entries_nonempty_without_blank_lines
           no_packages (manifest_host example_text) example_text
           [lit "numpy==1.21.0"; lit "pandas"]).
  - apply manifest_host_text.
  - apply lines_of_iff; reflexivity.
  - repeat constructor; discriminate.
Defined.

Lemma breakfree_no_LF_CR (l : str) : breakfree l -> (LF ∉ l) /\ (CR ∉ l).
Proof.
  intros Hl. unfold breakfree in Hl. rewrite Forall_forall in Hl.
  split; intros Hin; apply Hl in Hin; discriminate.
Qed.

(** C10: no entry of the requirements list has a line terminator in it,
    neither \n nor \r nor any other line boundary.  This holds of the list
    the script builds and of [str.splitlines] on any text, with \r\n and
    single \r in it. *)
Theorem entries_have_no_line_terminator (text : str) :
  Forall (fun entry : str => breakfree entry /\ (LF ∉ entry) /\ (CR ∉ entry))
    (requirements_of text)
  /\ Forall (fun entry : str => breakfree entry /\ (LF ∉ entry) /\ (CR ∉ entry))
       (splitlines text).
Proof.
  assert (H : forall s, Forall
            (fun entry : str => breakfree entry /\ (LF ∉ entry) /\ (CR ∉ entry))
            (splitlines s)).
  { intros s. eapply Forall_impl.
    - apply (splitlines_from_breakfree_entries s []). constructor.
    - intros entry He. split; [exact He|now apply breakfree_no_LF_CR]. }
  split; apply H.
Qed.

(** ** The record passed to [setup] *)

(** C8: for every manifest that can be read, [setup] is called once, with a
    record of exactly the five fields [name], [version], [author],
    [packages] and [install_requires], in which the first three are the
    fixed strings, [packages] is what [find_packages()] returns, and
    [install_requires] is the whole contents of the file split at its line
    boundaries, the lines in the order of the file. *)
Theorem setup_receives_metadata
    (fp : gmap string node -> list str)
    (hs : list (string * value) -> gmap string node
          -> (exn + unit) * gmap string node)
    (h : host) (text : str) :
  manifest_text h = Some text ->
  exists (kw : list (string * value)) (reqs : list str),
    lines_of text reqs
    /\ reqs = splitlines text
    /\ setup_py fp hs h = call_setup hs kw h
    /\ registered (snd (setup_py fp hs h)) = registered h ++ [kw]
    /\ map fst kw = ["name"; "version"; "author"; "packages"; "install_requires"]
    /\ field "name" kw = Some (Str (lit "Machine Efficiency Prediction"))
    /\ field "version" kw = Some (Str (lit "0.1"))
    /\ field "author" kw = Some (Str (lit "David G"))
    /\ field "packages" kw = Some (StrList (fp (fs h)))
    /\ field "install_requires" kw = Some (StrList reqs).
Proof.
  intros Hm.
  exists (metadata (fp (fs h)) (splitlines text)), (splitlines text).
  rewrite (setup_py_readable fp hs h text Hm), requirements_of_splitlines.
  rewrite call_setup_registered.
  split; [apply splitlines_lines|]. repeat split.
Qed.

Lemma setup_receives_metadata_witness :
  manifest_text (project_host dos_text) = Some dos_text
  /\ exists (kw : list (string * value)) (reqs : list str),
       lines_of dos_text reqs
       /\ reqs = splitlines dos_text
       /\ setup_py one_package setup_accepts (project_host dos_text)
          = call_setup setup_accepts kw (project_host dos_text)
       /\ registered (snd (setup_py one_package setup_accepts (project_host dos_text)))
          = registered (project_host dos_text) ++ [kw]
       /\ map fst kw
          = ["name"; "version"; "author"; "packages"; "install_requires"]
       /\ field "name" kw = Some (Str (lit "Machine Efficiency Prediction"))
       /\ field "version" kw = Some (Str (lit "0.1"))
       /\ field "author" kw = Some (Str (lit "David G"))
       /\ field "packages" kw
          = Some (StrList (one_package (fs (project_host dos_text))))
       /\ field "install_requires" kw = Some (StrList reqs).
Proof.
  assert (Hm : manifest_text (project_host dos_text) = Some dos_text)
    by (vm_compute; reflexivity).
  split; [exact Hm|].
  exact (setup_receives_metadata
           one_package setup_accepts (project_host dos_text) dos_text Hm).
Defined.

(** C9: the construction of the descriptor is deterministic.  It leaves the
    host as it found it, so that a second invocation does what the first
    did; and on two hosts with the same manifest it fails with the same
    exception or builds two records with the same [name], [version],
    [author] and [install_requires], which are the same record when
    [find_packages()] finds the same packages. *)
Theorem descriptor_deterministic
    (fp1 fp2 : gmap string node -> list str) (h1 h2 : host) :
  fs h1 !! requirements_txt = fs h2 !! requirements_txt ->
  descriptor fp1 (snd (descriptor fp1 h1)) = descriptor fp1 h1
  /\ match fst (descriptor fp1 h1), fst (descriptor fp2 h2) with
     | inr kw1, inr kw2 =>
         field "name" kw1 = field "name" kw2
         /\ field "version" kw1 = field "version" kw2
         /\ field "author" kw1 = field "author" kw2
         /\ field "install_requires" kw1 = field "install_requires" kw2
         /\ (fp1 (fs h1) = fp2 (fs h2) -> kw1 = kw2)
     | inl e1, inl e2 => e1 = e2
     | _, _ => False
     end.
Proof.
  intros Hsame.
  assert (Ht : manifest_text h2 = manifest_text h1)
    by (unfold manifest_text; now rewrite Hsame).
  destruct (manifest_text h1) as [text|] eqn:Hm.
  - rewrite (descriptor_readable fp1 h1 text Hm).
    rewrite (descriptor_readable fp2 h2 text Ht). simpl.
    rewrite (descriptor_readable fp1 h1 text Hm).
    split; [reflexivity|].
    repeat split. now intros ->.
  - rewrite (descriptor_unreadable_error fp1 h1 Hm).
    rewrite (descriptor_unreadable_error fp2 h2 Ht). simpl.
    rewrite (descriptor_unreadable_error fp1 h1 Hm).
    split; [reflexivity|]. now rewrite Hsame.
Qed.

Lemma descriptor_deterministic_witness :
  fs (manifest_host example_text) !! requirements_txt
  = fs (project_host example_text) !! requirements_txt
  /\ descriptor no_packages (snd (descriptor no_packages (manifest_host example_text)))
     = descriptor no_packages (manifest_host example_text)
  /\ match fst (descriptor no_packages (manifest_host example_text)),
           fst (descriptor one_package (project_host example_text)) with
     | inr kw1, inr kw2 =>
         field "name" kw1 = field "name" kw2
         /\ field "version" kw1 = field "version" kw2
         /\ field "author" kw1 = field "author" kw2
         /\ field "install_requires" kw1 = field "install_requires" kw2
         /\ (no_packages (fs (manifest_host example_text))
             = one_package (fs (project_host example_text)) -> kw1 = kw2)
     | inl e1, inl e2 => e1 = e2
     | _, _ => False
     end.
Proof.
  assert (Hsame : fs (manifest_host example_text) !! requirements_txt
                  = fs (project_host example_text) !! requirements_txt)
    by (vm_compute; reflexivity).
  split; [exact Hsame|].
  exact (descriptor_deterministic
           no_packages one_package
           (manifest_host example_text) (project_host example_text) Hsame).
Defined.

(** ** More on reading and splitting *)

Lemma unlines_CR_no_LF (ls : list str) :
  Forall breakfree ls -> starts_with_LF (unlines [CR] ls) = false.
Proof.
  intros Hall. destruct Hall as [|l ls' Hl _]; [reflexivity|].
  unfold unlines. simpl. destruct Hl as [|c l' Hc _]; [reflexivity|].
  simpl. destruct (c =? LF)%N eqn:E; [|reflexivity].
  apply N.eqb_eq in E. subst c. discriminate.
Qed.

(** Lines written one after the other are the lines of the text written. *)
Lemma lines_of_unlines (eol : str) (ls : list str) :
  eol = [LF] \/ eol = [CR; LF] \/ eol = [CR] ->
  Forall breakfree ls ->
  lines_of (unlines eol ls) ls.
Proof.
  intros Heol Hall. induction Hall as [|l ls' Hl Hall IH]; [constructor|].
  change (unlines eol (l :: ls')) with ((l ++ eol) ++ unlines eol ls').
  rewrite <- app_assoc. apply lines_of_cons; [exact Hl| | |exact IH].
  - destruct Heol as [ -> | [ -> | -> ] ];
      [now apply terminator_char|constructor|now apply terminator_char].
  - intros ->. now apply unlines_CR_no_LF.
Qed.

(** A newline ends what is before it, whatever comes after it. *)
Lemma splitlines_from_app_LF (a b : str) : forall cur,
  splitlines_from cur (a ++ LF :: b)
  = splitlines_from cur (a ++ [LF]) ++ splitlines b.
Proof.
  induction a as [|c rest IH1 IH2] using scan_ind; intros cur; [reflexivity|].
  simpl. destruct (is_linebreak c).
  - destruct (c =? CR)%N.
    + destruct rest as [|c' rest']; [reflexivity|].
      simpl. f_equal. destruct (c' =? LF)%N; [apply IH2|apply (IH1 [])].
    + simpl. f_equal. apply IH1.
  - apply IH1.
Qed.

(** A newline after a character that ends no line adds no entry. *)
Lemma splitlines_from_final_LF (t : str) (c : char) : forall cur,
  is_linebreak c = false ->
  splitlines_from cur (t ++ [c; LF]) = splitlines_from cur (t ++ [c]).
Proof.
  intros cur Hc. revert cur.
  assert (Hlf : (c =? LF)%N = false).
  { destruct (c =? LF)%N eqn:E; [|reflexivity].
    apply N.eqb_eq in E. subst c. discriminate. }
  induction t as [|c0 rest IH1 IH2] using scan_ind; intros cur.
  - simpl. rewrite Hc. simpl. now destruct cur.
  - simpl. destruct (is_linebreak c0).
    + f_equal. destruct (c0 =? CR)%N; [|apply IH1].
      destruct rest as [|c' rest'].
      * simpl. rewrite Hlf. apply (IH1 []).
      * simpl. destruct (c' =? LF)%N; [apply IH2|apply (IH1 [])].
    + apply IH1.
Qed.

(** Splitting drops the line boundaries and nothing else. *)
Lemma concat_splitlines_from (s : str) : forall cur,
  concat (splitlines_from cur s) = cur ++ List.filter not_linebreak s.
Proof.
  induction s as [|c rest IH1 IH2] using scan_ind; intros cur.
  - simpl. destruct cur; [reflexivity|]. simpl. now rewrite !app_nil_r.
  - simpl. unfold not_linebreak at 1. destruct (is_linebreak c) eqn:Hc; simpl.
    + f_equal. destruct (c =? CR)%N; [|apply (IH1 [])].
      destruct rest as [|c' rest']; [reflexivity|].
      destruct (c' =? LF)%N eqn:E; [|apply (IH1 [])].
      apply N.eqb_eq in E. subst c'. simpl. apply (IH2 []).
    + rewrite IH1. now rewrite <- app_assoc.
Qed.

Lemma lines_of_pieces (s : str) (ls : list str) :
  lines_of s ls ->
  Forall (fun entry : str => exists pre post : str, s = pre ++ entry ++ post) ls.
Proof.
  induction 1 as [|l Hne Hl|l t rest ls Hl Ht Hcr _ IH].
  - constructor.
  - constructor; [|constructor]. exists [], []. now rewrite app_nil_r.
  - constructor.
    + now exists [], (t ++ rest).
    + eapply Forall_impl; [exact IH|].
      intros entry (pre & post & ->). exists (l ++ t ++ pre), post.
      now rewrite <- !app_assoc.
Qed.

Lemma translate_newlines_fixed (s : str) :
  Forall (fun c => c <> CR) s -> translate_newlines s = s.
Proof.
  induction 1 as [|c s' Hc _ IH]; [reflexivity|].
  simpl. apply N.eqb_neq in Hc. now rewrite Hc, IH.
Qed.

(** X1: a manifest written as lines without line boundaries in them, each
    followed by the same end-of-line marker, \n or \r\n or \r, is read back
    as exactly these lines, whichever of the three markers was used. *)
Theorem written_lines_are_read_back (h : host) (eol : str) (ls : list str) :
  manifest_text h = Some (unlines eol ls) ->
  eol = [LF] \/ eol = [CR; LF] \/ eol = [CR] ->
  Forall breakfree ls ->
  read_requirements h = (inr ls, h).
Proof.
  intros Hm Heol Hall.
  rewrite (read_requirements_readable h _ Hm), requirements_of_splitlines.
  f_equal. f_equal. apply lines_of_splitlines. now apply lines_of_unlines.
Qed.

Lemma written_lines_are_read_back_witness :
  manifest_text (manifest_host (unlines [CR] [lit "numpy"; []; lit "pandas"]))
  = Some (unlines [CR] [lit "numpy"; []; lit "pandas"])
  /\ ([CR] = [LF] \/ [CR] = [CR; LF] \/ [CR] = [CR])
  /\ Forall breakfree [lit "numpy"; []; lit "pandas"]
  /\ read_requirements
       (manifest_host (unlines [CR] [lit "numpy"; []; lit "pandas"]))
     = (inr [lit "numpy"; []; lit "pandas"],
        manifest_host (unlines [CR] [lit "numpy"; []; lit "pandas"])).
Proof.
  split; [apply manifest_host_text|].
  split; [right; right; reflexivity|].
  split; [repeat constructor|].
  apply (written_lines_are_read_back
           (manifest_host (unlines [CR] [lit "numpy"; []; lit "pandas"]))
           [CR] [lit "numpy"; []; lit "pandas"]).
  - apply manifest_host_text.
  - right; right; reflexivity.
  - repeat constructor.
Defined.

(** X2: text that follows a newline adds its own entries after those of the
    text up to the newline, and changes none of them: the requirements of
    [a ++ "\n" ++ b] are those of [a ++ "\n"] followed by those of [b]. *)
Theorem requirements_after_newline (a b : str) :
  requirements_of (a ++ [LF] ++ b)
  = requirements_of (a ++ [LF]) ++ requirements_of b.
Proof.
  rewrite !requirements_of_splitlines. apply splitlines_from_app_LF.
Qed.

(** X3: the newline at the end of the manifest is optional: when the last
    character of the text is no line boundary, the text with a newline
    added has the same requirements. *)
Theorem final_newline_is_optional (t : str) (c : char) :
  is_linebreak c = false ->
  requirements_of (t ++ [c] ++ [LF]) = requirements_of (t ++ [c]).
Proof.
  intros Hc. rewrite !requirements_of_splitlines.
  now apply splitlines_from_final_LF.
Qed.

Lemma final_newline_is_optional_witness :
  is_linebreak 115%N = false
  /\ requirements_of ((lit "numpy" ++ [LF] ++ lit "panda") ++ [115%N] ++ [LF])
     = requirements_of ((lit "numpy" ++ [LF] ++ lit "panda") ++ [115%N]).
Proof.
  split; [reflexivity|].
  apply (final_newline_is_optional (lit "numpy" ++ [LF] ++ lit "panda") 115%N).
  reflexivity.
Defined.

(** X4: splitting loses the line boundaries and nothing else: the entries of
    the requirements list, one after the other, are the characters of the
    manifest that are no line boundaries, in their order. *)
Theorem requirements_keep_all_characters (text : str) :
  concat (requirements_of text) = List.filter not_linebreak text.
Proof.
  rewrite requirements_of_splitlines. apply (concat_splitlines_from text []).
Qed.

(** X5: the manifest is closed again on every path.  Lines 3-4 leave the host
    as they found it, whether the file was read or an exception left the
    [with] statement, and after the whole script the files that are open
    are those that were open before. *)
Theorem manifest_is_closed_on_every_path
    (fp : gmap string node -> list str)
    (hs : list (string * value) -> gmap string node
          -> (exn + unit) * gmap string node)
    (h : host) :
  snd (read_requirements h) = h
  /\ open_files (snd (setup_py fp hs h)) = open_files h.
Proof.
  destruct (manifest_text h) as [text|] eqn:Hm.
  - rewrite (read_requirements_readable h text Hm).
    rewrite (setup_py_readable fp hs h text Hm).
    split; [reflexivity|].
    unfold call_setup. now destruct (hs _ (fs h)).
  - rewrite (read_requirements_unreadable_error h Hm).
    split; [reflexivity|].
    unfold setup_py, bind.
    now rewrite (descriptor_unreadable_error fp h Hm).
Qed.

(** X6: every entry of the requirements list stands in the manifest as it
    is: the contents of the file are some text, the entry, and some more
    text. *)
Theorem entries_are_pieces_of_the_manifest (text : str) :
  Forall (fun entry : str => exists pre post : str, text = pre ++ entry ++ post)
    (requirements_of text).
Proof.
  rewrite requirements_of_splitlines.
  apply lines_of_pieces, splitlines_lines.
Qed.

(** X7: the requirements list written back, one entry per line with a
    newline after each, is read as the same list again. *)
Theorem requirements_written_back (text : str) :
  requirements_of (unlines [LF] (requirements_of text)) = requirements_of text.
Proof.
  rewrite (requirements_of_splitlines (unlines _ _)).
  apply lines_of_splitlines, lines_of_unlines; [now left|].
  rewrite requirements_of_splitlines.
  apply (splitlines_from_breakfree_entries text []). constructor.
Qed.

(** X8: what [f.read()] hands to the script has no \r in it, so that a
    second translation of newlines would change nothing, and reading leaves
    the host as it is. *)
Theorem text_read_has_no_CR (f : string) (h h' : host) (data : str) :
  read f h = (inr data, h') ->
  h' = h /\ Forall (fun c => c <> CR) data /\ translate_newlines data = data.
Proof.
  unfold read, raise. intros Hr.
  destruct (fs h !! f) as [[|r [text|]]|]; try discriminate.
  injection Hr as <- <-. split; [reflexivity|].
  split; [apply translate_newlines_no_CR|].
  apply translate_newlines_fixed, translate_newlines_no_CR.
Qed.

Lemma text_read_has_no_CR_witness :
  read requirements_txt (manifest_host dos_text)
  = (inr (lit "numpy" ++ [LF; LF] ++ lit "pandas" ++ [LF]), manifest_host dos_text)
  /\ manifest_host dos_text = manifest_host dos_text
  /\ Forall (fun c => c <> CR) (lit "numpy" ++ [LF; LF] ++ lit "pandas" ++ [LF])
  /\ translate_newlines (lit "numpy" ++ [LF; LF] ++ lit "pandas" ++ [LF])
     = lit "numpy" ++ [LF; LF] ++ lit "pandas" ++ [LF].
Proof.
  assert (Hr : read requirements_txt (manifest_host dos_text)
               = (inr (lit "numpy" ++ [LF; LF] ++ lit "pandas" ++ [LF]),
                  manifest_host dos_text)).
  { unfold read, manifest_host. simpl. now rewrite lookup_singleton_eq. }
  split; [exact Hr|].
  exact (text_read_has_no_CR requirements_txt (manifest_host dos_text)
           (manifest_host dos_text)
           (lit "numpy" ++ [LF; LF] ++ lit "pandas" ++ [LF]) Hr).
Defined.
